(** * wx/textentry.h: the wxTextEntryBase interface

    A shallow embedding of the inline members of [wxTextEntryBase]
    (include/wx/textentry.h): the event-suppression counter
    [m_eventsBlock], the scoped [EventsSuppressor] guard, the notification
    plumbing and the trivial default implementations.

    Member functions are state transformers on the record [wxTextEntryBase];
    the members a platform backend must supply (the pure virtuals and the
    overridable hook [EnableTextChangedEvents]) are the methods of the class
    [Backend].  Two kinds of calls are observable from outside the object,
    the dispatch of a text-updated event and a call of the backend hook;
    both are recorded, in order, in the field [observed]. *)

From Stdlib Require Import ZArith List Bool Ascii String Lia.
Import ListNotations.
Open Scope Z_scope.

(** ** Data *)

(** [wxString]: a sequence of characters. *)
Definition wxString : Type := list ascii.

(** [typedef long wxTextPos]: positions are signed integers, [-1] is used as
    a sentinel by several members. *)
Definition wxTextPos : Type := Z.

(** The width in bits of the C++ type [unsigned], the type of
    [m_eventsBlock].  It is fixed by the platform ABI (32 for the Windows
    tool chains this header is shipped with); the language only promises at
    least 16 bits. *)
Class Platform : Type := {
  unsigned_bits : Z;
  unsigned_bits_min : 16 <= unsigned_bits
}.

(** What a derived class supplies: the pure virtual members of
    [wxTextEntryBase], acting on the native widget [W], the override of the
    hook [EnableTextChangedEvents] (whose default does nothing), and the
    answer of the owning window's event handlers. *)
Class Backend (W : Type) : Type := {
  native_WriteText : wxString -> W -> W;
  native_Remove : wxTextPos -> wxTextPos -> W -> W;
  native_SetInsertionPoint : wxTextPos -> W -> W;
  native_GetLastPosition : W -> wxTextPos;
  native_SetSelection : wxTextPos -> wxTextPos -> W -> W;
  native_DoGetValue : W -> wxString;
  native_EnableTextChangedEvents : bool -> W -> W;
  native_ProcessEvent : W -> bool
}.

(** Calls that leave the object. *)
Inductive Event : Type :=
| EvTextUpdated
| EvEnableTextChangedEvents (enable : bool).

Definition is_text_updated (e : Event) : bool :=
  match e with
  | EvTextUpdated => true
  | EvEnableTextChangedEvents _ => false
  end.

Definition is_hook_call (e : Event) : bool :=
  match e with
  | EvTextUpdated => false
  | EvEnableTextChangedEvents _ => true
  end.

(** Number of text-updated events in a log. *)
Definition notifications (log : list Event) : nat :=
  List.length (filter is_text_updated log).

(** The calls of the backend hook in a log. *)
Definition hook_calls (log : list Event) : list Event :=
  filter is_hook_call log.

(** Modelled from the spec: the class [wxTextEntryHintData] is only
    forward-declared in the header; the spec describes the hint as an
    optional string owned by the entry. *)
Definition wxTextEntryHintData : Type := wxString.

(** The data members of [wxTextEntryBase], the native widget of the derived
    class, and the log of observable calls (oldest first). *)
Record wxTextEntryBase (W : Type) : Type := mkEntry {
  widget : W;
  m_eventsBlock : Z;
  m_hintData : option wxTextEntryHintData;
  observed : list Event
}.

Arguments mkEntry {W} _ _ _ _.
Arguments widget {W} _.
Arguments m_eventsBlock {W} _.
Arguments m_hintData {W} _.
Arguments observed {W} _.

Definition SetValue_SendEvent : Z := 1.
Definition SetValue_SelectionOnly : Z := 2.

(** ** Members defined in the header *)

Section Members.

Context {P : Platform} {W : Type} {B : Backend W}.

Local Abbreviation entry := (wxTextEntryBase W).

(** Conversion to [unsigned]: reduction modulo [2 ^ unsigned_bits]. *)
Definition to_unsigned (x : Z) : Z := x mod 2 ^ unsigned_bits.

(** The values an [unsigned] data member can hold. *)
Definition counter_ok (st : entry) : Prop :=
  0 <= m_eventsBlock st < 2 ^ unsigned_bits.

(** [wxTextEntryBase() { m_eventsBlock = 0; m_hintData = NULL; }],
    constructed over the widget [w] of the derived class. *)
Definition wxTextEntryBase_ctor (w : W) : entry :=
  mkEntry w 0 None [].

(** [bool EventsAllowed() const { return m_eventsBlock == 0; }] *)
Definition EventsAllowed (st : entry) : bool :=
  m_eventsBlock st =? 0.

(** [virtual void EnableTextChangedEvents(bool enable)]: the call is logged
    and the backend's override acts on the widget. *)
Definition EnableTextChangedEvents (enable : bool) (st : entry) : entry :=
  mkEntry (native_EnableTextChangedEvents enable (widget st))
          (m_eventsBlock st)
          (m_hintData st)
          (observed st ++ [EvEnableTextChangedEvents enable]).

(** [if ( !m_eventsBlock++ ) EnableTextChangedEvents(false);] *)
Definition SuppressTextChangedEvents (st : entry) : entry :=
  let old := m_eventsBlock st in
  let st' := mkEntry (widget st) (to_unsigned (old + 1))
                     (m_hintData st) (observed st) in
  if old =? 0 then EnableTextChangedEvents false st' else st'.

(** [if ( !--m_eventsBlock ) EnableTextChangedEvents(true);] *)
Definition ResumeTextChangedEvents (st : entry) : entry :=
  let new := to_unsigned (m_eventsBlock st - 1) in
  let st' := mkEntry (widget st) new (m_hintData st) (observed st) in
  if new =? 0 then EnableTextChangedEvents true st' else st'.

(** [ForwardEnableTextChangedEvents(bool enable)] *)
Definition ForwardEnableTextChangedEvents (enable : bool) (st : entry)
  : entry :=
  if enable then ResumeTextChangedEvents st
  else SuppressTextChangedEvents st.

(** The nested class [EventsSuppressor]: its constructor and its destructor,
    for the value [suppress] of the member [m_suppress]. *)
Definition EventsSuppressor_ctor (suppress : bool) (st : entry) : entry :=
  if suppress then SuppressTextChangedEvents st else st.

Definition EventsSuppressor_dtor (suppress : bool) (st : entry) : entry :=
  if suppress then ResumeTextChangedEvents st else st.

(** A block with a local [EventsSuppressor]: the destructor runs when the
    block is left. *)
Definition with_EventsSuppressor (suppress : bool) (body : entry -> entry)
  (st : entry) : entry :=
  EventsSuppressor_dtor suppress (body (EventsSuppressor_ctor suppress st)).

(** Modelled from the spec: the body of the static member
    [SendTextUpdatedEvent(wxWindow *win)] is not in the header; the spec
    says it synchronously dispatches a change notification for the owning
    window and returns whether a listener handled it. *)
Definition SendTextUpdatedEvent_win (st : entry) : bool * entry :=
  (native_ProcessEvent (widget st),
   mkEntry (widget st) (m_eventsBlock st) (m_hintData st)
           (observed st ++ [EvTextUpdated])).

(** [bool SendTextUpdatedEvent()
      { return SendTextUpdatedEvent(GetEditableWindow()); }] *)
Definition SendTextUpdatedEvent (st : entry) : bool * entry :=
  SendTextUpdatedEvent_win st.

(** [if ( EventsAllowed() ) SendTextUpdatedEvent();] *)
Definition SendTextUpdatedEventIfAllowed (st : entry) : entry :=
  if EventsAllowed st then snd (SendTextUpdatedEvent st) else st.

(** [virtual long GetLastPosition() const = 0;] *)
Definition GetLastPosition (st : entry) : wxTextPos :=
  native_GetLastPosition (widget st).

(** [bool IsEmpty() const { return GetLastPosition() <= 0; }] *)
Definition IsEmpty (st : entry) : bool :=
  GetLastPosition st <=? 0.

(** [virtual bool AutoComplete(const wxArrayString&) { return false; }] *)
Definition AutoComplete (choices : list wxString) (st : entry)
  : bool * entry :=
  (false, st).

(** [virtual bool AutoCompleteFileNames() { return false; }] *)
Definition AutoCompleteFileNames (st : entry) : bool * entry :=
  (false, st).

(** [virtual void SetMaxLength(unsigned long) { }] *)
Definition SetMaxLength (len : Z) (st : entry) : entry := st.

(** *** The pure virtual editing members

    [WriteText], [Remove], [SetInsertionPoint] and [SetSelection] are pure
    virtual, their bodies live in the platform backends.  Following the
    spec, an editing primitive changes the text of the native widget and
    its change notification is delivered unless notifications are
    suppressed (this is why composite operations must suppress their
    constituent steps); moving the insertion point or the selection changes
    no text and notifies nobody. *)

(** The backend acts on the native widget only: [m_eventsBlock] and
    [m_hintData] are private members of the base class. *)
Definition with_widget (f : W -> W) (st : entry) : entry :=
  mkEntry (f (widget st)) (m_eventsBlock st) (m_hintData st) (observed st).

(** An editing step that is quiet while notifications are suppressed: it
    only applies [f] to the widget. *)
Definition quiet_edit (f : W -> W) (body : entry -> entry) : Prop :=
  forall s : entry, m_eventsBlock s <> 0 -> body s = with_widget f s.

(** Modelled from the spec: [WriteText] is pure virtual; the backend
    inserts the text in its widget, and the widget's change notification is
    delivered unless suppressed. *)
Definition WriteText (text : wxString) (st : entry) : entry :=
  SendTextUpdatedEventIfAllowed (with_widget (native_WriteText text) st).

(** Modelled from the spec: [Remove] is pure virtual; the backend deletes
    the range in its widget, and the widget's change notification is
    delivered unless suppressed. *)
Definition Remove (from to : wxTextPos) (st : entry) : entry :=
  SendTextUpdatedEventIfAllowed (with_widget (native_Remove from to) st).

(** Modelled from the spec: [SetInsertionPoint] is pure virtual; it moves
    the insertion point of the widget and changes no text. *)
Definition SetInsertionPoint (pos : wxTextPos) (st : entry) : entry :=
  with_widget (native_SetInsertionPoint pos) st.

(** Modelled from the spec: [SetSelection] is pure virtual; it moves the
    selection of the widget and changes no text. *)
Definition SetSelection (from to : wxTextPos) (st : entry) : entry :=
  with_widget (native_SetSelection from to) st.

(** [virtual wxString DoGetValue() const = 0;] *)
Definition DoGetValue (st : entry) : wxString :=
  native_DoGetValue (widget st).

(** [virtual void SetInsertionPointEnd() { SetInsertionPoint(-1); }] *)
Definition SetInsertionPointEnd (st : entry) : entry :=
  SetInsertionPoint (-1) st.

(** [virtual void SelectAll() { SetSelection(-1, -1); }] *)
Definition SelectAll (st : entry) : entry :=
  SetSelection (-1) (-1) st.

(** *** Members declared in the header and defined elsewhere *)

(** Modelled from the spec: the body of [DoSetValue] is not in the header.
    The spec says that setting the value replaces the entire content, that
    the default implementation is built from the editing primitives, whose
    own notifications must not reach the listeners, and that one change
    notification is emitted (unless suppressed) exactly when the flag
    [SetValue_SendEvent] is given.  The whole content is selected and
    [WriteText], which replaces the selection, writes the new value. *)
Definition DoSetValue (value : wxString) (flags : Z) (st : entry) : entry :=
  let st' :=
    with_EventsSuppressor true (fun s => WriteText value (SelectAll s)) st in
  if Z.land flags SetValue_SendEvent =? 0 then st'
  else SendTextUpdatedEventIfAllowed st'.

(** [virtual void SetValue(const wxString& value)
      { DoSetValue(value, SetValue_SendEvent); }] *)
Definition SetValue (value : wxString) (st : entry) : entry :=
  DoSetValue value SetValue_SendEvent st.


(** [virtual void Clear() { SetValue(wxString()); }] *)
Definition Clear (st : entry) : entry :=
  SetValue [] st.

(** Modelled from the spec: the body of [Replace] is not in the header.
    The spec says it removes the range [from, to), inserts [value] at
    [from], suppresses the constituent low-level operations and fires one
    notification at the end. *)
Definition Replace (from to : wxTextPos) (value : wxString) (st : entry)
  : entry :=
  SendTextUpdatedEventIfAllowed
    (with_EventsSuppressor true
       (fun s => WriteText value (SetInsertionPoint from (Remove from to s)))
       st).

(** *** Scenarios

    Sequences of calls that the properties below talk about. *)

(** The guard acquired twice and released once: the state after the first
    release and the state after the second. *)
Definition nested_release_once (st : entry) : entry :=
  EventsSuppressor_dtor true
    (EventsSuppressor_ctor true (EventsSuppressor_ctor true st)).

Definition nested_release_twice (st : entry) : entry :=
  EventsSuppressor_dtor true (nested_release_once st).

(** Notifications stay suppressed after the first release and are delivered
    again after the second. *)
Definition nested_suppression (st : entry) : Prop :=
  EventsAllowed (nested_release_once st) = false
  /\ EventsAllowed (nested_release_twice st) = true.

(** *** Sequences of calls and nested guards *)

(** A sequence of calls of the public member
    [ForwardEnableTextChangedEvents], the first call first. *)
Definition forward_all (enables : list bool) (st : entry) : entry :=
  fold_left (fun s enable => ForwardEnableTextChangedEvents enable s)
            enables st.

(** The suppressions of such a sequence minus its resumptions. *)
Fixpoint net_suppressions (enables : list bool) : Z :=
  match enables with
  | [] => 0
  | true :: rest => net_suppressions rest - 1
  | false :: rest => net_suppressions rest + 1
  end.

(** From the counter [c] the sequence never resumes at zero and never
    suppresses at the largest value of [unsigned]. *)
Fixpoint well_nested (c : Z) (enables : list bool) : bool :=
  match enables with
  | [] => true
  | true :: rest => (1 <=? c) && well_nested (c - 1) rest
  | false :: rest =>
      (c + 1 <? 2 ^ unsigned_bits) && well_nested (c + 1) rest
  end.

(** What the backend was told last through the hook; the header notes that
    initially the generation of the events is enabled. *)
Definition backend_enabled (log : list Event) : bool :=
  fold_left (fun on e =>
               match e with
               | EvTextUpdated => on
               | EvEnableTextChangedEvents enable => enable
               end)
            log true.

(** The backend has been told exactly what [EventsAllowed] answers. *)
Definition hook_in_sync (st : entry) : Prop :=
  backend_enabled (observed st) = EventsAllowed st.

(** A body that gives back the counter it was called with. *)
Definition keeps_counter (body : entry -> entry) : Prop :=
  forall s : entry, counter_ok s -> m_eventsBlock (body s) = m_eventsBlock s.

(** [n] blocks inside one another, each with its own local
    [EventsSuppressor], around [body]. *)
Definition nested_guards (n : nat) (body : entry -> entry)
  : entry -> entry :=
  Nat.iter n (with_EventsSuppressor true) body.

End Members.

(** ** A reference backend

    The native widgets are outside the header.  The reference backend
    follows the spec's data model: a character sequence with a selection, a
    pair of positions that is degenerate when nothing is selected and then
    marks the insertion point; positions outside the text are clamped, [-1]
    stands for the end of the text and the selection [(-1, -1)] for the
    whole text. *)
Module Reference.

(** Modelled from the spec: the native widget, a text buffer and a
    selection [sel_from, sel_to); with [sel_from = sel_to] nothing is
    selected and the position is the insertion point. *)
Record Widget : Type := mkWidget {
  text : wxString;
  sel_from : wxTextPos;
  sel_to : wxTextPos
}.

(** Modelled from the spec: the backend's [GetLastPosition], the length
    of the text. *)
Definition last_position (w : Widget) : wxTextPos :=
  Z.of_nat (List.length (text w)).

(** A position brought into [0, last_position w]. *)
Definition clamp (w : Widget) (pos : wxTextPos) : wxTextPos :=
  Z.max 0 (Z.min (last_position w) pos).

(** The text with the range [from, to) replaced by [value]. *)
Definition splice (from to : wxTextPos) (value buf : wxString) : wxString :=
  firstn (Z.to_nat from) buf ++ value ++ skipn (Z.to_nat to) buf.

(** Modelled from the spec: the backend's [SetSelection]; [(-1, -1)]
    selects the whole text, other positions are clamped. *)
Definition set_selection (from to : wxTextPos) (w : Widget) : Widget :=
  if (from =? -1) && (to =? -1)
  then mkWidget (text w) 0 (last_position w)
  else let a := clamp w from in
       mkWidget (text w) a (Z.max a (clamp w to)).

(** Modelled from the spec: the backend's [SetInsertionPoint]; it clears
    the selection, and [-1] means the end of the text. *)
Definition set_insertion_point (pos : wxTextPos) (w : Widget) : Widget :=
  let p := if pos =? -1 then last_position w else clamp w pos in
  mkWidget (text w) p p.

(** Modelled from the spec: the backend's [WriteText]; the text goes in
    at the insertion point and replaces the selection, the insertion point
    ends behind it. *)
Definition write_text (value : wxString) (w : Widget) : Widget :=
  let p := sel_from w + Z.of_nat (List.length value) in
  mkWidget (splice (sel_from w) (sel_to w) value (text w)) p p.

(** Modelled from the spec: the backend's [Remove]; it deletes the
    (clamped) range and leaves the insertion point at its start. *)
Definition remove (from to : wxTextPos) (w : Widget) : Widget :=
  let a := clamp w from in
  let b := Z.max a (clamp w to) in
  mkWidget (splice a b [] (text w)) a a.

(** Modelled from the spec: a backend that keeps the default, empty
    [EnableTextChangedEvents] and whose window has no event handler. *)
#[global] Instance backend : Backend Widget := {
  native_WriteText := write_text;
  native_Remove := remove;
  native_SetInsertionPoint := set_insertion_point;
  native_GetLastPosition := last_position;
  native_SetSelection := set_selection;
  native_DoGetValue := text;
  native_EnableTextChangedEvents := fun _ w => w;
  native_ProcessEvent := fun _ => false
}.

(** The 32-bit [unsigned] of the Windows tool chains. *)
#[export] Instance msw : Platform := {
  unsigned_bits := 32;
  unsigned_bits_min := ltac:(lia)
}.

(** A freshly constructed entry holding the text [s]. *)
Definition fresh (s : string) : wxTextEntryBase Widget :=
  wxTextEntryBase_ctor (mkWidget (list_ascii_of_string s) 0 0).

(** The same entry inside [n] active suppressions. *)
Definition nested (n : Z) (s : string) : wxTextEntryBase Widget :=
  mkEntry (mkWidget (list_ascii_of_string s) 0 0) n None [].

End Reference.

(** ** Arithmetic of the [unsigned] counter *)

Section CounterArithmetic.

Context {P : Platform}.

Lemma unsigned_range_large : 65536 <= 2 ^ unsigned_bits.
Proof.
  change 65536 with (2 ^ 16).
  apply Z.pow_le_mono_r; [lia | exact unsigned_bits_min].
Qed.

Lemma to_unsigned_small (x : Z) :
  0 <= x < 2 ^ unsigned_bits -> to_unsigned x = x.
Proof. intros Hx. unfold to_unsigned. now apply Z.mod_small. Qed.

Lemma to_unsigned_range (x : Z) : 0 <= to_unsigned x < 2 ^ unsigned_bits.
Proof.
  unfold to_unsigned. apply Z.mod_pos_bound.
  pose proof unsigned_range_large. lia.
Qed.

(** Decrementing zero wraps around to the largest value. *)
Lemma to_unsigned_pred_zero : to_unsigned (0 - 1) = 2 ^ unsigned_bits - 1.
Proof.
  pose proof unsigned_range_large as Hbig.
  unfold to_unsigned. symmetry.
  apply Z.mod_unique_pos with (q := -1); lia.
Qed.

(** Incrementing the largest value wraps around to zero. *)
Lemma to_unsigned_succ_max : to_unsigned (2 ^ unsigned_bits - 1 + 1) = 0.
Proof.
  pose proof unsigned_range_large as Hbig.
  unfold to_unsigned. symmetry.
  apply Z.mod_unique_pos with (q := 1); lia.
Qed.

(** A decrement reaches zero only from one. *)
Lemma to_unsigned_pred_eq_zero (c : Z) :
  0 <= c < 2 ^ unsigned_bits -> (to_unsigned (c - 1) = 0 <-> c = 1).
Proof.
  intros Hc. pose proof unsigned_range_large as Hbig.
  destruct (Z.eq_dec c 0) as [-> | Hnz].
  - rewrite to_unsigned_pred_zero. lia.
  - rewrite to_unsigned_small by lia. lia.
Qed.

End CounterArithmetic.

(** ** The suppression counter and the backend hook *)

Section Suppression.

Context {P : Platform} {W : Type} {B : Backend W}.

Local Abbreviation entry := (wxTextEntryBase W).

Lemma Suppress_counter (st : entry) :
  m_eventsBlock (SuppressTextChangedEvents st)
  = to_unsigned (m_eventsBlock st + 1).
Proof.
  unfold SuppressTextChangedEvents.
  destruct (m_eventsBlock st =? 0); reflexivity.
Qed.

Lemma Suppress_observed (st : entry) :
  observed (SuppressTextChangedEvents st)
  = observed st
    ++ (if m_eventsBlock st =? 0
        then [EvEnableTextChangedEvents false] else []).
Proof.
  unfold SuppressTextChangedEvents.
  destruct (m_eventsBlock st =? 0); simpl; [reflexivity |].
  now rewrite app_nil_r.
Qed.

Lemma Suppress_widget (st : entry) :
  widget (SuppressTextChangedEvents st)
  = if m_eventsBlock st =? 0
    then native_EnableTextChangedEvents false (widget st) else widget st.
Proof.
  unfold SuppressTextChangedEvents.
  destruct (m_eventsBlock st =? 0); reflexivity.
Qed.

Lemma Resume_counter (st : entry) :
  m_eventsBlock (ResumeTextChangedEvents st)
  = to_unsigned (m_eventsBlock st - 1).
Proof.
  unfold ResumeTextChangedEvents.
  destruct (to_unsigned (m_eventsBlock st - 1) =? 0); reflexivity.
Qed.

Lemma Resume_observed (st : entry) :
  observed (ResumeTextChangedEvents st)
  = observed st
    ++ (if to_unsigned (m_eventsBlock st - 1) =? 0
        then [EvEnableTextChangedEvents true] else []).
Proof.
  unfold ResumeTextChangedEvents.
  destruct (to_unsigned (m_eventsBlock st - 1) =? 0); simpl;
    [reflexivity |].
  now rewrite app_nil_r.
Qed.

Lemma Resume_widget (st : entry) :
  widget (ResumeTextChangedEvents st)
  = if to_unsigned (m_eventsBlock st - 1) =? 0
    then native_EnableTextChangedEvents true (widget st) else widget st.
Proof.
  unfold ResumeTextChangedEvents.
  destruct (to_unsigned (m_eventsBlock st - 1) =? 0); reflexivity.
Qed.

(** Every member keeps the counter among the values of [unsigned]. *)
Lemma ctor_counter_ok (w : W) : counter_ok (wxTextEntryBase_ctor w).
Proof.
  unfold counter_ok; simpl. pose proof unsigned_range_large. lia.
Qed.

Lemma Suppress_counter_ok (st : entry) :
  counter_ok (SuppressTextChangedEvents st).
Proof.
  unfold counter_ok. rewrite Suppress_counter. apply to_unsigned_range.
Qed.

Lemma Resume_counter_ok (st : entry) :
  counter_ok (ResumeTextChangedEvents st).
Proof.
  unfold counter_ok. rewrite Resume_counter. apply to_unsigned_range.
Qed.

(** [k] releases in a row, from a counter that is large enough, only count
    down: the hook is not called and the widget is not touched. *)
Lemma Resume_iter (k : nat) (st : entry) :
  Z.of_nat k < m_eventsBlock st < 2 ^ unsigned_bits ->
  let st' := Nat.iter k ResumeTextChangedEvents st in
  m_eventsBlock st' = m_eventsBlock st - Z.of_nat k
  /\ observed st' = observed st
  /\ widget st' = widget st.
Proof.
  induction k as [| k IH]; intros Hk; simpl.
  - repeat split. lia.
  - destruct IH as (Hc & Ho & Hw); [lia |].
    assert (Hnew : to_unsigned
                     (m_eventsBlock (Nat.iter k ResumeTextChangedEvents st)
                      - 1)
                   = m_eventsBlock st - Z.of_nat (S k)).
    { rewrite Hc. rewrite to_unsigned_small by lia. lia. }
    rewrite Resume_counter, Resume_observed, Resume_widget, Hnew.
    destruct (Z.eqb_spec (m_eventsBlock st - Z.of_nat (S k)) 0) as [E | _];
      [lia |].
    rewrite app_nil_r. auto.
Qed.

(** C9: a newly constructed entry has the suppression counter zero and no
    hint data, no call has been made on its behalf, and [EventsAllowed]
    answers true on it: change notifications are enabled from the start. *)
Theorem fresh_entry_allows_events (w : W) :
  m_eventsBlock (wxTextEntryBase_ctor w) = 0
  /\ m_hintData (wxTextEntryBase_ctor w) = None
  /\ observed (wxTextEntryBase_ctor w) = []
  /\ EventsAllowed (wxTextEntryBase_ctor w) = true.
Proof. repeat split. Qed.

(** C5: [SendTextUpdatedEventIfAllowed] dispatches a change notification if
    and only if the suppression counter is zero: with the counter zero the
    log grows by exactly the text-updated event and nothing else changes,
    with a nonzero counter the entry is left as it was. *)
Theorem SendTextUpdatedEventIfAllowed_iff (st : entry) :
  (notifications (observed (SendTextUpdatedEventIfAllowed st))
   = S (notifications (observed st))
   <-> m_eventsBlock st = 0)
  /\ (m_eventsBlock st = 0 ->
      SendTextUpdatedEventIfAllowed st
      = mkEntry (widget st) (m_eventsBlock st) (m_hintData st)
                (observed st ++ [EvTextUpdated]))
  /\ (m_eventsBlock st <> 0 -> SendTextUpdatedEventIfAllowed st = st).
Proof.
  unfold SendTextUpdatedEventIfAllowed, EventsAllowed, notifications.
  destruct (Z.eqb_spec (m_eventsBlock st) 0) as [E | N]; simpl.
  - rewrite filter_app, length_app; simpl.
    repeat split; intros; try lia; try congruence.
  - repeat split; intros; try lia; try congruence.
Qed.

(** C7: [IsEmpty] returns true if and only if [GetLastPosition] returns a
    value less than or equal to 0. *)
Theorem IsEmpty_iff (st : entry) :
  IsEmpty st = true <-> GetLastPosition st <= 0.
Proof. unfold IsEmpty. apply Z.leb_le. Qed.

(** C8: the default [AutoComplete] and [AutoCompleteFileNames] return false
    for every input and leave the entry exactly as it was. *)
Theorem AutoComplete_unsupported (choices : list wxString) (st : entry) :
  AutoComplete choices st = (false, st)
  /\ AutoCompleteFileNames st = (false, st).
Proof. split; reflexivity. Qed.

End Suppression.

(** ** Nesting and unbalanced releases *)

Section Nesting.

Context {P : Platform} {W : Type} {B : Backend W}.

Local Abbreviation entry := (wxTextEntryBase W).

(** Below the largest value the counter goes up by one and comes back:
    the guard acquired twice and released twice restores the counter. *)
Lemma nested_counters (st : entry) :
  0 <= m_eventsBlock st < 2 ^ unsigned_bits - 2 ->
  m_eventsBlock (nested_release_once st) = m_eventsBlock st + 1
  /\ m_eventsBlock (nested_release_twice st) = m_eventsBlock st.
Proof.
  intros Hc. unfold nested_release_twice, nested_release_once; simpl.
  rewrite !Resume_counter, !Suppress_counter.
  rewrite (to_unsigned_small (m_eventsBlock st + 1)) by lia.
  rewrite (to_unsigned_small (m_eventsBlock st + 1 + 1)) by lia.
  replace (m_eventsBlock st + 1 + 1 - 1) with (m_eventsBlock st + 1) by lia.
  rewrite (to_unsigned_small (m_eventsBlock st + 1)) by lia.
  replace (m_eventsBlock st + 1 - 1) with (m_eventsBlock st) by lia.
  rewrite to_unsigned_small by lia. auto.
Qed.

(** C3 (amended): suppression is counted.  Starting from any state whose
    counter is zero, acquiring the guard twice brings the counter to 2,
    releasing it once brings it to 1, so notifications are still suppressed,
    and releasing it a second time brings it to 0, so [EventsAllowed] is
    true again. *)
Theorem nested_suppression_from_zero (st : entry) :
  m_eventsBlock st = 0 ->
  m_eventsBlock (EventsSuppressor_ctor true (EventsSuppressor_ctor true st))
  = 2
  /\ m_eventsBlock (nested_release_once st) = 1
  /\ m_eventsBlock (nested_release_twice st) = 0
  /\ nested_suppression st.
Proof.
  intros H0. pose proof unsigned_range_large as Hbig.
  destruct (nested_counters st) as [H1 H2]; [lia |].
  unfold nested_suppression, EventsAllowed.
  rewrite H1, H2, H0. repeat split.
  simpl. rewrite !Suppress_counter, H0.
  rewrite (to_unsigned_small (0 + 1)) by lia.
  rewrite to_unsigned_small by lia. reflexivity.
Qed.

(** C4: the backend hook is called only at the boundary transitions of the
    counter.  [SuppressTextChangedEvents] calls it (with false) exactly when
    the counter was zero, the transition 0 to 1, and
    [ResumeTextChangedEvents] calls it (with true) exactly when the counter
    was one, which is exactly when it reaches zero; at every other nesting
    level the log of calls is unchanged. *)
Theorem hook_called_at_boundaries_only (st : entry) :
  counter_ok st ->
  observed (SuppressTextChangedEvents st)
  = observed st
    ++ (if m_eventsBlock st =? 0
        then [EvEnableTextChangedEvents false] else [])
  /\ (m_eventsBlock st = 0 ->
      m_eventsBlock (SuppressTextChangedEvents st) = 1)
  /\ observed (ResumeTextChangedEvents st)
     = observed st
       ++ (if m_eventsBlock st =? 1
           then [EvEnableTextChangedEvents true] else [])
  /\ (m_eventsBlock st = 1 <->
      m_eventsBlock (ResumeTextChangedEvents st) = 0).
Proof.
  intros Hok. pose proof unsigned_range_large as Hbig.
  pose proof (to_unsigned_pred_eq_zero (m_eventsBlock st) Hok) as Hpred.
  repeat apply conj.
  - apply Suppress_observed.
  - intros H0. rewrite Suppress_counter, H0.
    apply to_unsigned_small. lia.
  - rewrite Resume_observed.
    destruct (Z.eqb_spec (to_unsigned (m_eventsBlock st - 1)) 0) as [E | N];
      destruct (Z.eqb_spec (m_eventsBlock st) 1) as [E1 | N1];
      try reflexivity.
    + apply Hpred in E. contradiction.
    + apply Hpred in E1. contradiction.
  - intros H1. rewrite Resume_counter. now apply Hpred.
  - rewrite Resume_counter. intros E. now apply Hpred.
Qed.

(** The public member [ForwardEnableTextChangedEvents] releases without
    a matching acquisition, also on a fresh entry. *)
Lemma Forward_enable_is_Resume (st : entry) :
  ForwardEnableTextChangedEvents true st = ResumeTextChangedEvents st
  /\ ForwardEnableTextChangedEvents false st = SuppressTextChangedEvents st.
Proof. split; reflexivity. Qed.

(** C10: [ResumeTextChangedEvents] on a counter that is already zero wraps
    the counter to the largest value [2 ^ unsigned_bits - 1], which is not
    zero: the hook is not called, the widget is not touched and
    [EventsAllowed] is false.  It stays so, without any call of the hook,
    through every number of further releases below
    [2 ^ unsigned_bits - 1]; the release that completes that number brings
    the counter to zero, calls the hook with true, and [EventsAllowed] is
    true again. *)
Theorem unbalanced_resume_wraps (st : entry) :
  m_eventsBlock st = 0 ->
  let st' := ResumeTextChangedEvents st in
  m_eventsBlock st' = 2 ^ unsigned_bits - 1
  /\ m_eventsBlock st' <> 0
  /\ observed st' = observed st
  /\ widget st' = widget st
  /\ EventsAllowed st' = false
  /\ (forall k : nat,
        Z.of_nat k < 2 ^ unsigned_bits - 1 ->
        EventsAllowed (Nat.iter k ResumeTextChangedEvents st') = false
        /\ observed (Nat.iter k ResumeTextChangedEvents st') = observed st)
  /\ (let last :=
         Nat.iter (Z.to_nat (2 ^ unsigned_bits - 1))
                  ResumeTextChangedEvents st' in
       EventsAllowed last = true
       /\ observed last = observed st ++ [EvEnableTextChangedEvents true]).
Proof.
  intros H0 st'. pose proof unsigned_range_large as Hbig.
  assert (Hc : m_eventsBlock st' = 2 ^ unsigned_bits - 1).
  { unfold st'. rewrite Resume_counter, H0. apply to_unsigned_pred_zero. }
  assert (Ho : observed st' = observed st).
  { unfold st'. rewrite Resume_observed, H0, to_unsigned_pred_zero.
    destruct (Z.eqb_spec (2 ^ unsigned_bits - 1) 0); [lia |].
    apply app_nil_r. }
  assert (Hw : widget st' = widget st).
  { unfold st'. rewrite Resume_widget, H0, to_unsigned_pred_zero.
    destruct (Z.eqb_spec (2 ^ unsigned_bits - 1) 0); [lia | reflexivity]. }
  assert (Hlast :
            let last :=
              Nat.iter (Z.to_nat (2 ^ unsigned_bits - 1))
                       ResumeTextChangedEvents st' in
            m_eventsBlock last = 0
            /\ observed last
               = observed st ++ [EvEnableTextChangedEvents true]).
  { cbv zeta.
    replace (Z.to_nat (2 ^ unsigned_bits - 1))
      with (S (Z.to_nat (2 ^ unsigned_bits - 2))) by lia.
    rewrite Nat.iter_succ.
    destruct (Resume_iter (Z.to_nat (2 ^ unsigned_bits - 2)) st')
      as (Hk1 & Hk2 & _); [rewrite Z2Nat.id; lia |].
    rewrite Z2Nat.id in Hk1 by lia.
    rewrite Resume_counter, Resume_observed, Hk1, Hk2, Hc, Ho.
    replace (2 ^ unsigned_bits - 1 - (2 ^ unsigned_bits - 2) - 1) with 0
      by lia.
    rewrite to_unsigned_small by lia. split; reflexivity. }
  destruct Hlast as [Hlast_c Hlast_o].
  repeat apply conj; try assumption.
  - lia.
  - unfold EventsAllowed. rewrite Hc. apply Z.eqb_neq. lia.
  - intros k Hk.
    destruct (Resume_iter k st') as (Hk1 & Hk2 & _); [lia |].
    unfold EventsAllowed. rewrite Hk1, Hk2, Hc. split; [| assumption].
    apply Z.eqb_neq. lia.
  - unfold EventsAllowed. rewrite Hlast_c. reflexivity.
Qed.

End Nesting.

(** ** Composite operations under the guard *)

Section Composite.

Context {P : Platform} {W : Type} {B : Backend W}.

Local Abbreviation entry := (wxTextEntryBase W).

Lemma notifications_app (l l' : list Event) :
  notifications (l ++ l') = (notifications l + notifications l')%nat.
Proof. unfold notifications. now rewrite filter_app, length_app. Qed.

Lemma SendIfAllowed_eq (st : entry) :
  SendTextUpdatedEventIfAllowed st
  = mkEntry (widget st) (m_eventsBlock st) (m_hintData st)
            (observed st
             ++ (if m_eventsBlock st =? 0 then [EvTextUpdated] else [])).
Proof.
  unfold SendTextUpdatedEventIfAllowed, EventsAllowed.
  destruct st as [w c h o]; simpl.
  destruct (c =? 0); simpl; [reflexivity |]. now rewrite app_nil_r.
Qed.

Lemma quiet_primitive (f : W -> W) :
  quiet_edit f (fun s => SendTextUpdatedEventIfAllowed (with_widget f s)).
Proof.
  intros s Hs. rewrite SendIfAllowed_eq; simpl.
  apply Z.eqb_neq in Hs. rewrite Hs, app_nil_r. reflexivity.
Qed.

Lemma quiet_move (f : W -> W) : quiet_edit f (with_widget f).
Proof. intros s _. reflexivity. Qed.

Lemma quiet_compose (f g : W -> W) (body1 body2 : entry -> entry) :
  quiet_edit f body1 -> quiet_edit g body2 ->
  quiet_edit (fun w => g (f w)) (fun s => body2 (body1 s)).
Proof.
  intros H1 H2 s Hs. rewrite (H1 s Hs). rewrite H2 by exact Hs.
  reflexivity.
Qed.

(** A quiet body under the guard: the counter goes up and comes back, the
    hook is called around the body exactly when the guard is the outermost
    one, and no text-updated event is dispatched. *)
Lemma guarded_quiet_edit (f : W -> W) (body : entry -> entry) (st : entry) :
  0 <= m_eventsBlock st < 2 ^ unsigned_bits - 1 ->
  quiet_edit f body ->
  with_EventsSuppressor true body st
  = if m_eventsBlock st =? 0
    then mkEntry (native_EnableTextChangedEvents true
                    (f (native_EnableTextChangedEvents false (widget st))))
                 0 (m_hintData st)
                 (observed st ++ [EvEnableTextChangedEvents false;
                                  EvEnableTextChangedEvents true])
    else with_widget f st.
Proof.
  intros Hc Hbody. pose proof unsigned_range_large as Hbig.
  unfold with_EventsSuppressor, EventsSuppressor_ctor, EventsSuppressor_dtor.
  destruct st as [w c h o]; simpl in *.
  unfold SuppressTextChangedEvents; simpl.
  rewrite (to_unsigned_small (c + 1)) by lia.
  destruct (Z.eqb_spec c 0) as [-> | Hnz].
  - rewrite Hbody by (simpl; lia).
    unfold ResumeTextChangedEvents, EnableTextChangedEvents, with_widget;
      simpl.
    rewrite to_unsigned_small by lia; simpl.
    now rewrite <- app_assoc.
  - rewrite Hbody by (simpl; lia).
    unfold ResumeTextChangedEvents, with_widget; simpl.
    replace (c + 1 - 1) with c by lia.
    rewrite to_unsigned_small by lia.
    destruct (Z.eqb_spec c 0); [contradiction | reflexivity].
Qed.

Lemma SelectAll_WriteText_quiet (value : wxString) :
  quiet_edit (fun w => native_WriteText value (native_SetSelection (-1) (-1) w))
             (fun s => WriteText value (SelectAll s)).
Proof.
  apply (quiet_compose (native_SetSelection (-1) (-1))
                       (native_WriteText value)).
  - apply quiet_move.
  - apply quiet_primitive.
Qed.

Lemma Remove_WriteText_quiet (from to : wxTextPos) (value : wxString) :
  quiet_edit
    (fun w => native_WriteText value
                (native_SetInsertionPoint from (native_Remove from to w)))
    (fun s => WriteText value (SetInsertionPoint from (Remove from to s))).
Proof.
  apply (quiet_compose
           (fun w => native_SetInsertionPoint from (native_Remove from to w))
           (native_WriteText value)
           (fun s => SetInsertionPoint from (Remove from to s))).
  - apply (quiet_compose (native_Remove from to)
                         (native_SetInsertionPoint from)).
    + apply quiet_primitive.
    + apply quiet_move.
  - apply quiet_primitive.
Qed.

(** The log of [DoSetValue]: the primitives dispatch nothing, and one
    text-updated event follows exactly when the flag asks for it and
    notifications are allowed. *)
Lemma DoSetValue_observed (value : wxString) (flags : Z) (st : entry) :
  0 <= m_eventsBlock st < 2 ^ unsigned_bits - 1 ->
  observed (DoSetValue value flags st)
  = observed st
    ++ (if m_eventsBlock st =? 0
        then [EvEnableTextChangedEvents false;
              EvEnableTextChangedEvents true]
        else [])
    ++ (if (Z.land flags SetValue_SendEvent =? 0)
           || negb (m_eventsBlock st =? 0)
        then [] else [EvTextUpdated]).
Proof.
  intros Hc. unfold DoSetValue.
  rewrite (guarded_quiet_edit _ _ st Hc (SelectAll_WriteText_quiet value)).
  destruct (Z.land flags SetValue_SendEvent =? 0); simpl.
  - destruct (m_eventsBlock st =? 0); simpl; now rewrite ?app_nil_r.
  - rewrite SendIfAllowed_eq.
    destruct (m_eventsBlock st =? 0) eqn:E; simpl.
    + now rewrite <- app_assoc.
    + rewrite E. now rewrite !app_nil_r.
Qed.

(** The log of [Replace]. *)
Lemma Replace_observed (from to : wxTextPos) (value : wxString)
  (st : entry) :
  0 <= m_eventsBlock st < 2 ^ unsigned_bits - 1 ->
  observed (Replace from to value st)
  = observed st
    ++ (if m_eventsBlock st =? 0
        then [EvEnableTextChangedEvents false;
              EvEnableTextChangedEvents true;
              EvTextUpdated]
        else []).
Proof.
  intros Hc. unfold Replace.
  rewrite (guarded_quiet_edit _ _ st Hc
             (Remove_WriteText_quiet from to value)).
  rewrite SendIfAllowed_eq.
  destruct (m_eventsBlock st =? 0) eqn:E; simpl.
  - now rewrite <- app_assoc.
  - rewrite E. now rewrite !app_nil_r.
Qed.

Lemma Replace_counter (from to : wxTextPos) (value : wxString)
  (st : entry) :
  0 <= m_eventsBlock st < 2 ^ unsigned_bits - 1 ->
  m_eventsBlock (Replace from to value st) = m_eventsBlock st.
Proof.
  intros Hc. unfold Replace.
  rewrite (guarded_quiet_edit _ _ st Hc
             (Remove_WriteText_quiet from to value)).
  rewrite SendIfAllowed_eq.
  destruct (Z.eqb_spec (m_eventsBlock st) 0) as [E | N]; simpl; congruence.
Qed.

End Composite.

(** ** The default implementations over the reference backend *)

Section OverReference.

Context {P : Platform}.

Local Abbreviation entry := (wxTextEntryBase Reference.Widget).

Lemma widget_SendIfAllowed (st : entry) :
  widget (SendTextUpdatedEventIfAllowed st) = widget st.
Proof. rewrite SendIfAllowed_eq. reflexivity. Qed.

Lemma widget_Suppress (st : entry) :
  widget (SuppressTextChangedEvents st) = widget st.
Proof.
  rewrite Suppress_widget. destruct (m_eventsBlock st =? 0); reflexivity.
Qed.

Lemma widget_Resume (st : entry) :
  widget (ResumeTextChangedEvents st) = widget st.
Proof.
  rewrite Resume_widget.
  destruct (to_unsigned (m_eventsBlock st - 1) =? 0); reflexivity.
Qed.

Lemma widget_DoSetValue (value : wxString) (flags : Z) (st : entry) :
  widget (DoSetValue value flags st)
  = Reference.write_text value
      (Reference.set_selection (-1) (-1) (widget st)).
Proof.
  unfold DoSetValue, with_EventsSuppressor, EventsSuppressor_ctor,
    EventsSuppressor_dtor, WriteText, SelectAll, SetSelection.
  destruct (Z.land flags SetValue_SendEvent =? 0);
    rewrite ?widget_SendIfAllowed, widget_Resume, widget_SendIfAllowed;
    simpl; rewrite widget_Suppress; reflexivity.
Qed.

Lemma widget_Replace (from to : wxTextPos) (value : wxString) (st : entry) :
  widget (Replace from to value st)
  = Reference.write_text value
      (Reference.set_insertion_point from
         (Reference.remove from to (widget st))).
Proof.
  unfold Replace, with_EventsSuppressor, EventsSuppressor_ctor,
    EventsSuppressor_dtor, WriteText, SetInsertionPoint, Remove.
  rewrite widget_SendIfAllowed, widget_Resume, widget_SendIfAllowed.
  simpl. rewrite widget_SendIfAllowed. simpl.
  rewrite widget_Suppress. reflexivity.
Qed.

(** Writing over the whole text leaves exactly the new value. *)
Lemma write_over_all (value : wxString) (w : Reference.Widget) :
  Reference.text
    (Reference.write_text value (Reference.set_selection (-1) (-1) w))
  = value.
Proof.
  unfold Reference.write_text, Reference.set_selection,
    Reference.splice, Reference.last_position; simpl.
  rewrite Nat2Z.id, skipn_all, app_nil_r. reflexivity.
Qed.

(** Removing a valid range and writing at its start. *)
Lemma remove_then_write (from to : wxTextPos) (value : wxString)
  (w : Reference.Widget) :
  0 <= from <= to -> to <= Reference.last_position w ->
  Reference.text
    (Reference.write_text value
       (Reference.set_insertion_point from (Reference.remove from to w)))
  = Reference.splice from to value (Reference.text w).
Proof.
  intros Hft Hto. destruct w as [buf a b].
  unfold Reference.last_position in Hto; simpl in Hto.
  assert (Hlen : (Z.to_nat from <= Z.to_nat to <= List.length buf)%nat)
    by lia.
  assert (Hcut : List.length
                   (Reference.splice from to [] buf)
                 = (Z.to_nat from + (List.length buf - Z.to_nat to))%nat).
  { unfold Reference.splice; simpl.
    rewrite length_app, length_firstn, length_skipn. lia. }
  unfold Reference.write_text, Reference.set_insertion_point,
    Reference.remove, Reference.clamp, Reference.last_position; simpl.
  replace (Z.max 0 (Z.min (Z.of_nat (List.length buf)) from)) with from
    by lia.
  replace (Z.max from (Z.max 0 (Z.min (Z.of_nat (List.length buf)) to)))
    with to by lia.
  destruct (Z.eqb_spec from (-1)) as [E | _]; [lia |]. simpl.
  rewrite Hcut.
  replace (Z.max 0
             (Z.min (Z.of_nat
                       (Z.to_nat from + (List.length buf - Z.to_nat to)))
                    from)) with from by lia.
  unfold Reference.splice; simpl.
  assert (Hfirst : List.length (firstn (Z.to_nat from) buf) = Z.to_nat from).
  { rewrite length_firstn. lia. }
  rewrite firstn_app, skipn_app, Hfirst, Nat.sub_diag; simpl.
  rewrite firstn_firstn, Nat.min_id, app_nil_r.
  rewrite skipn_all2 by (rewrite Hfirst; lia). reflexivity.
Qed.


(** C2 (amended): for every buffer content, every valid range [from, to)
    and every text [V], [Replace from to V] leaves the text before [from],
    then [V], then the text from [to] on, whatever the suppression counter
    is.  When notifications are not suppressed it dispatches exactly one
    change notification: the log grows by the two calls of the hook around
    the primitives and one text-updated event, the primitive steps
    contribute none. *)
Theorem Replace_spec (from to : wxTextPos) (V : wxString) (st : entry) :
  0 <= from <= to ->
  to <= GetLastPosition st ->
  DoGetValue (Replace from to V st)
  = firstn (Z.to_nat from) (DoGetValue st)
    ++ V ++ skipn (Z.to_nat to) (DoGetValue st)
  /\ (m_eventsBlock st = 0 ->
      notifications (observed (Replace from to V st))
      = S (notifications (observed st))
      /\ observed (Replace from to V st)
         = observed st ++ [EvEnableTextChangedEvents false;
                           EvEnableTextChangedEvents true;
                           EvTextUpdated]).
Proof.
  intros Hft Hto. pose proof unsigned_range_large as Hbig. split.
  - unfold DoGetValue. rewrite widget_Replace.
    cbn [native_DoGetValue Reference.backend].
    now apply remove_then_write.
  - intros H0.
    assert (Hlog : observed (Replace from to V st)
                   = observed st ++ [EvEnableTextChangedEvents false;
                                     EvEnableTextChangedEvents true;
                                     EvTextUpdated]).
    { rewrite Replace_observed by lia. now rewrite H0. }
    split; [| exact Hlog].
    rewrite Hlog, notifications_app. unfold notifications; simpl. lia.
Qed.

(** C6: [Clear] is [SetValue] with the empty string.  In every state it
    leaves the buffer empty, so that [IsEmpty] holds afterwards, and when
    notifications are not suppressed it dispatches exactly one change
    notification. *)
Theorem Clear_is_SetValue_empty (st : entry) :
  Clear st = SetValue [] st
  /\ DoGetValue (Clear st) = []
  /\ IsEmpty (Clear st) = true
  /\ (m_eventsBlock st = 0 ->
      notifications (observed (Clear st)) = S (notifications (observed st))).
Proof.
  pose proof unsigned_range_large as Hbig.
  assert (Htext : Reference.text (widget (Clear st)) = []).
  { unfold Clear, SetValue. rewrite widget_DoSetValue.
    apply write_over_all. }
  repeat apply conj; try reflexivity.
  - exact Htext.
  - unfold IsEmpty, GetLastPosition; simpl.
    unfold Reference.last_position. rewrite Htext. reflexivity.
  - intros H0. unfold Clear, SetValue.
    rewrite DoSetValue_observed by lia.
    rewrite !notifications_app, H0.
    unfold SetValue_SendEvent, notifications; simpl. lia.
Qed.

End OverReference.

(** ** Concrete runs on a 32-bit platform *)

(** C3 does not hold from every state: on a fresh entry that is already
    inside one guard, the guard acquired twice and released twice leaves
    the counter at 1, so notifications are not delivered again. *)
Lemma nested_suppression_inside_outer_guard :
  ~ nested_suppression (P := Reference.msw)
      (EventsSuppressor_ctor (P := Reference.msw) true
         (Reference.fresh "Hi")).
Proof.
  unfold nested_suppression. vm_compute. intros [_ H]. discriminate H.
Qed.

Lemma nested_suppression_from_zero_witness :
  m_eventsBlock (Reference.fresh "Hi") = 0
  /\ (m_eventsBlock
        (EventsSuppressor_ctor (P := Reference.msw) true
           (EventsSuppressor_ctor (P := Reference.msw) true
              (Reference.fresh "Hi"))) = 2
      /\ m_eventsBlock
           (nested_release_once (P := Reference.msw) (Reference.fresh "Hi"))
         = 1
      /\ m_eventsBlock
           (nested_release_twice (P := Reference.msw) (Reference.fresh "Hi"))
         = 0
      /\ nested_suppression (P := Reference.msw) (Reference.fresh "Hi")).
Proof.
  split; [reflexivity |].
  apply (nested_suppression_from_zero (P := Reference.msw)
           (Reference.fresh "Hi")).
  reflexivity.
Defined.

Lemma hook_called_at_boundaries_only_witness :
  counter_ok (P := Reference.msw) (Reference.nested 1 "Hi")
  /\ observed (ResumeTextChangedEvents (P := Reference.msw)
                 (Reference.nested 1 "Hi"))
     = [EvEnableTextChangedEvents true]
  /\ observed (SuppressTextChangedEvents (P := Reference.msw)
                 (Reference.nested 1 "Hi"))
     = [].
Proof.
  assert (Hok : counter_ok (P := Reference.msw) (Reference.nested 1 "Hi")).
  { unfold counter_ok; simpl; lia. }
  split; [exact Hok |].
  destruct (hook_called_at_boundaries_only (P := Reference.msw)
              (Reference.nested 1 "Hi") Hok) as (Hs & _ & Hr & _).
  split; [exact Hr | exact Hs].
Defined.

Lemma unbalanced_resume_wraps_witness :
  m_eventsBlock (Reference.fresh "Hi") = 0
  /\ m_eventsBlock
       (ResumeTextChangedEvents (P := Reference.msw) (Reference.fresh "Hi"))
     = 4294967295
  /\ EventsAllowed
       (ResumeTextChangedEvents (P := Reference.msw) (Reference.fresh "Hi"))
     = false.
Proof.
  split; [reflexivity |].
  destruct (unbalanced_resume_wraps (P := Reference.msw)
              (Reference.fresh "Hi") eq_refl)
    as (Hc & _ & _ & _ & Ha & _).
  split; [exact Hc | exact Ha].
Defined.



(** C2 does not hold inside a guard: on a fresh entry that is inside one
    [EventsSuppressor], [Replace] changes the text and dispatches no change
    notification. *)
Lemma Replace_inside_guard_is_silent :
  string_of_list_ascii
    (DoGetValue
       (Replace (P := Reference.msw) 1 3 (list_ascii_of_string "EY")
          (EventsSuppressor_ctor (P := Reference.msw) true
             (Reference.fresh "Hello"))))
  = "HEYlo"%string
  /\ observed
       (Replace (P := Reference.msw) 1 3 (list_ascii_of_string "EY")
          (EventsSuppressor_ctor (P := Reference.msw) true
             (Reference.fresh "Hello")))
     = observed
         (EventsSuppressor_ctor (P := Reference.msw) true
            (Reference.fresh "Hello"))
  /\ notifications
       (observed
          (Replace (P := Reference.msw) 1 3 (list_ascii_of_string "EY")
             (EventsSuppressor_ctor (P := Reference.msw) true
                (Reference.fresh "Hello"))))
     <> S (notifications
             (observed
                (EventsSuppressor_ctor (P := Reference.msw) true
                   (Reference.fresh "Hello")))).
Proof.
  split; [reflexivity |]. split; [reflexivity |].
  vm_compute. intros H. discriminate H.
Qed.

Lemma Replace_spec_witness :
  string_of_list_ascii
    (DoGetValue (Replace (P := Reference.msw) 1 3
                   (list_ascii_of_string "EY") (Reference.fresh "Hello")))
  = "HEYlo"%string
  /\ notifications
       (observed (Replace (P := Reference.msw) 1 3
                    (list_ascii_of_string "EY") (Reference.fresh "Hello")))
     = 1%nat.
Proof.
  destruct (Replace_spec (P := Reference.msw) 1 3
              (list_ascii_of_string "EY") (Reference.fresh "Hello"))
    as (Hv & Hn).
  - lia.
  - apply Z.leb_le. reflexivity.
  - split; [rewrite Hv; reflexivity |].
    destruct (Hn eq_refl) as [Hone _]. exact Hone.
Defined.

Lemma Clear_is_SetValue_empty_witness :
  DoGetValue (Clear (P := Reference.msw) (Reference.fresh "Hello")) = []
  /\ notifications
       (observed (Clear (P := Reference.msw) (Reference.fresh "Hello")))
     = 1%nat.
Proof.
  destruct (Clear_is_SetValue_empty (P := Reference.msw)
              (Reference.fresh "Hello")) as (_ & Hv & _ & Hn).
  split; [exact Hv | apply Hn; reflexivity].
Defined.

Lemma SendTextUpdatedEventIfAllowed_iff_witness :
  observed (SendTextUpdatedEventIfAllowed (Reference.fresh "Hi"))
  = [EvTextUpdated]
  /\ SendTextUpdatedEventIfAllowed (Reference.nested 2 "Hi")
     = Reference.nested 2 "Hi".
Proof.
  split.
  - destruct (SendTextUpdatedEventIfAllowed_iff (Reference.fresh "Hi"))
      as (_ & H0 & _).
    rewrite H0; reflexivity.
  - destruct (SendTextUpdatedEventIfAllowed_iff (Reference.nested 2 "Hi"))
      as (_ & _ & Hn).
    apply Hn. simpl. lia.
Defined.

(** ** Acquisitions and releases in sequence *)

Section Sequences.

Context {P : Platform} {W : Type} {B : Backend W}.

Local Abbreviation entry := (wxTextEntryBase W).

Lemma to_unsigned_succ_pred (c : Z) :
  0 <= c < 2 ^ unsigned_bits -> to_unsigned (to_unsigned (c + 1) - 1) = c.
Proof.
  intros Hc. pose proof unsigned_range_large as Hbig.
  destruct (Z.eq_dec c (2 ^ unsigned_bits - 1)) as [-> | Hn].
  - rewrite to_unsigned_succ_max. apply to_unsigned_pred_zero.
  - rewrite (to_unsigned_small (c + 1)) by lia.
    replace (c + 1 - 1) with c by lia. now apply to_unsigned_small.
Qed.

Lemma to_unsigned_pred_succ (c : Z) :
  0 <= c < 2 ^ unsigned_bits -> to_unsigned (to_unsigned (c - 1) + 1) = c.
Proof.
  intros Hc. pose proof unsigned_range_large as Hbig.
  destruct (Z.eq_dec c 0) as [-> | Hn].
  - rewrite to_unsigned_pred_zero. apply to_unsigned_succ_max.
  - rewrite (to_unsigned_small (c - 1)) by lia.
    replace (c - 1 + 1) with c by lia. now apply to_unsigned_small.
Qed.

Lemma to_unsigned_succ_eq_zero (c : Z) :
  0 <= c < 2 ^ unsigned_bits ->
  (to_unsigned (c + 1) = 0 <-> c = 2 ^ unsigned_bits - 1).
Proof.
  intros Hc. pose proof unsigned_range_large as Hbig.
  destruct (Z.eq_dec c (2 ^ unsigned_bits - 1)) as [-> | Hn].
  - rewrite to_unsigned_succ_max. tauto.
  - rewrite to_unsigned_small by lia. lia.
Qed.

(** X1: a release after an acquisition restores the counter for every
    value of [unsigned], the largest one included, and leaves the hint data
    alone; the hook is called around the pair, with false and then true,
    exactly when the counter was zero. *)
Theorem Resume_after_Suppress (st : entry) :
  counter_ok st ->
  let st' := ResumeTextChangedEvents (SuppressTextChangedEvents st) in
  m_eventsBlock st' = m_eventsBlock st
  /\ m_hintData st' = m_hintData st
  /\ observed st'
     = observed st
       ++ (if m_eventsBlock st =? 0
           then [EvEnableTextChangedEvents false;
                 EvEnableTextChangedEvents true]
           else []).
Proof.
  intros Hok st'. unfold counter_ok in Hok.
  pose proof unsigned_range_large as Hbig.
  pose proof (to_unsigned_succ_pred _ Hok) as Hback.
  subst st'. repeat apply conj.
  - now rewrite Resume_counter, Suppress_counter.
  - unfold ResumeTextChangedEvents, SuppressTextChangedEvents.
    destruct (m_eventsBlock st =? 0); simpl;
      match goal with |- context [if ?b then _ else _] => destruct b end;
      reflexivity.
  - rewrite Resume_observed, Suppress_observed, Suppress_counter, Hback.
    destruct (Z.eqb_spec (m_eventsBlock st) 0) as [E | N].
    + now rewrite <- app_assoc.
    + now rewrite !app_nil_r.
Qed.

(** X2: an acquisition after a release restores the counter as well, also
    when the release wrapped around from zero; the hook is called, with
    true and then false, exactly when the counter was one. *)
Theorem Suppress_after_Resume (st : entry) :
  counter_ok st ->
  let st' := SuppressTextChangedEvents (ResumeTextChangedEvents st) in
  m_eventsBlock st' = m_eventsBlock st
  /\ m_hintData st' = m_hintData st
  /\ observed st'
     = observed st
       ++ (if m_eventsBlock st =? 1
           then [EvEnableTextChangedEvents true;
                 EvEnableTextChangedEvents false]
           else []).
Proof.
  intros Hok st'. unfold counter_ok in Hok.
  pose proof unsigned_range_large as Hbig.
  pose proof (to_unsigned_pred_succ _ Hok) as Hback.
  pose proof (to_unsigned_pred_eq_zero _ Hok) as Hzero.
  subst st'. repeat apply conj.
  - now rewrite Suppress_counter, Resume_counter.
  - unfold ResumeTextChangedEvents, SuppressTextChangedEvents.
    destruct (to_unsigned (m_eventsBlock st - 1) =? 0); simpl;
      match goal with |- context [if ?b then _ else _] => destruct b end;
      reflexivity.
  - rewrite Suppress_observed, Resume_observed, Resume_counter.
    destruct (Z.eqb_spec (to_unsigned (m_eventsBlock st - 1)) 0) as [E | N];
      destruct (Z.eqb_spec (m_eventsBlock st) 1) as [E1 | N1].
    + now rewrite <- app_assoc.
    + apply Hzero in E. contradiction.
    + apply Hzero in E1. contradiction.
    + now rewrite !app_nil_r.
Qed.

(** X3: [SuppressTextChangedEvents] leaves notifications suppressed for
    every counter but the largest value of [unsigned]: there the increment
    wraps to zero, [EventsAllowed] is true afterwards and the hook has not
    been called. *)
Theorem Suppress_overflow (st : entry) :
  counter_ok st ->
  (EventsAllowed (SuppressTextChangedEvents st) = true
   <-> m_eventsBlock st = 2 ^ unsigned_bits - 1)
  /\ (m_eventsBlock st = 2 ^ unsigned_bits - 1 ->
      observed (SuppressTextChangedEvents st) = observed st).
Proof.
  intros Hok. unfold counter_ok in Hok.
  pose proof unsigned_range_large as Hbig.
  pose proof (to_unsigned_succ_eq_zero _ Hok) as Hzero.
  split.
  - unfold EventsAllowed. rewrite Suppress_counter, Z.eqb_eq. exact Hzero.
  - intros Hmax. rewrite Suppress_observed.
    destruct (Z.eqb_spec (m_eventsBlock st) 0); [lia | apply app_nil_r].
Qed.


Lemma to_unsigned_add_idemp (a b : Z) :
  to_unsigned (to_unsigned a + b) = to_unsigned (a + b).
Proof.
  pose proof unsigned_range_large as Hbig.
  unfold to_unsigned. apply Z.add_mod_idemp_l. lia.
Qed.

Lemma Forward_counter (enable : bool) (st : entry) :
  m_eventsBlock (ForwardEnableTextChangedEvents enable st)
  = to_unsigned (m_eventsBlock st + (if enable then -1 else 1)).
Proof.
  destruct enable; simpl.
  - now rewrite Resume_counter.
  - now rewrite Suppress_counter.
Qed.

Lemma Forward_hint (enable : bool) (st : entry) :
  m_hintData (ForwardEnableTextChangedEvents enable st) = m_hintData st.
Proof.
  destruct enable; simpl;
    unfold ResumeTextChangedEvents, SuppressTextChangedEvents;
    match goal with |- context [if ?b then _ else _] => destruct b end;
    reflexivity.
Qed.

Lemma Forward_observed (enable : bool) (st : entry) :
  exists calls : list Event,
    observed (ForwardEnableTextChangedEvents enable st)
    = observed st ++ calls
    /\ Forall (fun e => is_hook_call e = true) calls.
Proof.
  destruct enable; simpl.
  - rewrite Resume_observed.
    destruct (to_unsigned (m_eventsBlock st - 1) =? 0);
      eexists; split; try reflexivity; repeat constructor.
  - rewrite Suppress_observed.
    destruct (m_eventsBlock st =? 0);
      eexists; split; try reflexivity; repeat constructor.
Qed.

Lemma notifications_hook_calls (calls : list Event) :
  Forall (fun e => is_hook_call e = true) calls ->
  notifications calls = 0%nat.
Proof.
  unfold notifications.
  induction 1 as [| e calls He _ IH]; [reflexivity |].
  destruct e; simpl in *; [discriminate | exact IH].
Qed.

(** X4: whatever the sequence of calls of
    [ForwardEnableTextChangedEvents] and whatever the state, the log only
    grows, and only by calls of the backend hook: no text-updated event is
    ever dispatched, and the hint data is not touched. *)
Theorem forward_all_only_calls_hook (enables : list bool) (st : entry) :
  (exists calls : list Event,
      observed (forward_all enables st) = observed st ++ calls
      /\ Forall (fun e => is_hook_call e = true) calls)
  /\ notifications (observed (forward_all enables st))
     = notifications (observed st)
  /\ m_hintData (forward_all enables st) = m_hintData st.
Proof.
  assert (Hlog : exists calls : list Event,
             observed (forward_all enables st) = observed st ++ calls
             /\ Forall (fun e => is_hook_call e = true) calls).
  { revert st. induction enables as [| enable rest IH]; intros st.
    - exists []. split; [now rewrite app_nil_r | constructor].
    - destruct (Forward_observed enable st) as (c1 & Ho1 & Hc1).
      destruct (IH (ForwardEnableTextChangedEvents enable st))
        as (c2 & Ho2 & Hc2).
      exists (c1 ++ c2). split.
      + unfold forward_all in *; simpl. rewrite Ho2, Ho1.
        now rewrite app_assoc.
      + apply Forall_app. now split. }
  repeat apply conj.
  - exact Hlog.
  - destruct Hlog as (calls & Ho & Hc).
    rewrite Ho, notifications_app, (notifications_hook_calls _ Hc). lia.
  - clear Hlog. revert st.
    induction enables as [| enable rest IH]; intros st; [reflexivity |].
    unfold forward_all in *; simpl. rewrite IH. apply Forward_hint.
Qed.

Lemma forward_all_counter (enables : list bool) (st : entry) :
  m_eventsBlock (forward_all enables st)
  = match enables with
    | [] => m_eventsBlock st
    | _ :: _ => to_unsigned (m_eventsBlock st + net_suppressions enables)
    end.
Proof.
  revert st. induction enables as [| enable rest IH]; intros st;
    [reflexivity |].
  change (forward_all (enable :: rest) st)
    with (forward_all rest (ForwardEnableTextChangedEvents enable st)).
  rewrite IH, Forward_counter.
  destruct rest as [| enable' rest'].
  - destruct enable; simpl; f_equal; lia.
  - rewrite to_unsigned_add_idemp. f_equal.
    destruct enable;
      change (net_suppressions (true :: ?r)) with (net_suppressions r - 1);
      change (net_suppressions (false :: ?r)) with (net_suppressions r + 1);
      lia.
Qed.

(** X5: after any sequence of calls of [ForwardEnableTextChangedEvents]
    the counter is its old value plus the suppressions minus the
    resumptions, modulo [2 ^ unsigned_bits], whatever the order of the
    calls; it stays a value of [unsigned], and a sequence with as many
    resumptions as suppressions gives back the counter and the answer of
    [EventsAllowed]. *)
Theorem forward_all_counter_balance (enables : list bool) (st : entry) :
  counter_ok st ->
  m_eventsBlock (forward_all enables st)
  = to_unsigned (m_eventsBlock st + net_suppressions enables)
  /\ counter_ok (forward_all enables st)
  /\ (net_suppressions enables = 0 ->
      m_eventsBlock (forward_all enables st) = m_eventsBlock st
      /\ EventsAllowed (forward_all enables st) = EventsAllowed st).
Proof.
  intros Hok.
  assert (Hc : m_eventsBlock (forward_all enables st)
               = to_unsigned (m_eventsBlock st + net_suppressions enables)).
  { rewrite forward_all_counter. destruct enables; [| reflexivity].
    simpl. rewrite Z.add_0_r. symmetry. now apply to_unsigned_small. }
  split; [exact Hc | split].
  - unfold counter_ok. rewrite Hc. apply to_unsigned_range.
  - intros Hnet. rewrite Hnet, Z.add_0_r, to_unsigned_small in Hc
      by exact Hok.
    unfold EventsAllowed. now rewrite Hc.
Qed.

Lemma backend_enabled_hook (log : list Event) (enable : bool) :
  backend_enabled (log ++ [EvEnableTextChangedEvents enable]) = enable.
Proof. unfold backend_enabled. now rewrite fold_left_app. Qed.

(** X6: as long as no call resumes at zero or suppresses at the largest
    value of [unsigned], the backend has always been told what
    [EventsAllowed] answers: if the two agree before a sequence of calls of
    [ForwardEnableTextChangedEvents], they agree after it, and the counter
    has moved by the suppressions minus the resumptions, without wrapping. *)
Theorem forward_all_keeps_hook_in_sync (enables : list bool) (st : entry) :
  counter_ok st ->
  hook_in_sync st ->
  well_nested (m_eventsBlock st) enables = true ->
  hook_in_sync (forward_all enables st)
  /\ m_eventsBlock (forward_all enables st)
     = m_eventsBlock st + net_suppressions enables.
Proof.
  pose proof unsigned_range_large as Hbig.
  revert st. induction enables as [| enable rest IH]; intros st Hok Hs Hw.
  - simpl. split; [exact Hs | lia].
  - change (forward_all (enable :: rest) st)
      with (forward_all rest (ForwardEnableTextChangedEvents enable st)).
    unfold counter_ok in Hok. unfold hook_in_sync, EventsAllowed in Hs.
    destruct enable; simpl in Hw; apply andb_true_iff in Hw;
      destruct Hw as [Hb Hw].
    + apply Z.leb_le in Hb.
      assert (Hc : m_eventsBlock (ResumeTextChangedEvents st)
                   = m_eventsBlock st - 1).
      { rewrite Resume_counter. apply to_unsigned_small. lia. }
      destruct (IH (ResumeTextChangedEvents st)) as [IH1 IH2].
      * apply Resume_counter_ok.
      * unfold hook_in_sync, EventsAllowed.
        rewrite Hc, Resume_observed, to_unsigned_small by lia.
        destruct (Z.eqb_spec (m_eventsBlock st - 1) 0) as [E | N].
        -- apply backend_enabled_hook.
        -- rewrite app_nil_r, Hs. apply Z.eqb_neq. lia.
      * now rewrite Hc.
      * split; [exact IH1 |]. simpl. rewrite IH2, Hc. lia.
    + apply Z.ltb_lt in Hb.
      assert (Hc : m_eventsBlock (SuppressTextChangedEvents st)
                   = m_eventsBlock st + 1).
      { rewrite Suppress_counter. apply to_unsigned_small. lia. }
      destruct (IH (SuppressTextChangedEvents st)) as [IH1 IH2].
      * apply Suppress_counter_ok.
      * unfold hook_in_sync, EventsAllowed.
        rewrite Hc, Suppress_observed.
        destruct (Z.eqb_spec (m_eventsBlock st) 0) as [E | N].
        -- rewrite backend_enabled_hook. symmetry. apply Z.eqb_neq. lia.
        -- rewrite app_nil_r, Hs.
           destruct (Z.eqb_spec (m_eventsBlock st + 1) 0); [lia |].
           reflexivity.
      * now rewrite Hc.
      * split; [exact IH1 |]. simpl. rewrite IH2, Hc. lia.
Qed.

End Sequences.

(** ** Guards around a body *)

Section Guards.

Context {P : Platform} {W : Type} {B : Backend W}.

Local Abbreviation entry := (wxTextEntryBase W).

Lemma guard_keeps_counter (suppress : bool) (body : entry -> entry) :
  keeps_counter body -> keeps_counter (with_EventsSuppressor suppress body).
Proof.
  unfold keeps_counter. intros Hbody s Hs.
  unfold with_EventsSuppressor, EventsSuppressor_ctor, EventsSuppressor_dtor.
  destruct suppress; [| now apply Hbody].
  rewrite Resume_counter, Hbody by apply Suppress_counter_ok.
  rewrite Suppress_counter. now apply to_unsigned_succ_pred.
Qed.

(** X7: a block with a local [EventsSuppressor] gives back the counter it
    was entered with whenever its body does, for both values of the
    [suppress] argument and for every counter, the largest value of
    [unsigned] included; so does any number of such blocks inside one
    another, and [EventsAllowed] answers after them what it answered
    before. *)
Theorem nested_guards_restore_counter (n : nat) (body : entry -> entry)
  (st : entry) :
  counter_ok st ->
  keeps_counter body ->
  (forall suppress : bool,
      m_eventsBlock (with_EventsSuppressor suppress body st)
      = m_eventsBlock st)
  /\ m_eventsBlock (nested_guards n body st) = m_eventsBlock st
  /\ EventsAllowed (nested_guards n body st) = EventsAllowed st.
Proof.
  intros Hok Hbody.
  assert (Hn : keeps_counter (nested_guards n body)).
  { induction n as [| n IH]; [exact Hbody |].
    unfold nested_guards in *. rewrite Nat.iter_succ.
    now apply guard_keeps_counter. }
  repeat apply conj.
  - intros suppress. now apply guard_keeps_counter.
  - now apply Hn.
  - unfold EventsAllowed. now rewrite Hn.
Qed.

Lemma nested_guards_inner (f : W -> W) (body : entry -> entry) (n : nat) :
  quiet_edit f body ->
  forall s : entry,
    0 < m_eventsBlock s ->
    m_eventsBlock s + Z.of_nat n < 2 ^ unsigned_bits ->
    nested_guards n body s = with_widget f s.
Proof.
  intros Hbody. induction n as [| n IH]; intros s Hpos Hfit.
  - apply Hbody. lia.
  - unfold nested_guards in *. rewrite Nat.iter_succ.
    unfold with_EventsSuppressor, EventsSuppressor_ctor,
      EventsSuppressor_dtor.
    destruct s as [w c h o]; simpl in *.
    unfold SuppressTextChangedEvents; simpl.
    destruct (Z.eqb_spec c 0) as [E | _]; [lia |].
    rewrite (to_unsigned_small (c + 1)) by lia.
    rewrite IH by (cbn [m_eventsBlock]; lia).
    unfold ResumeTextChangedEvents, with_widget; simpl.
    replace (c + 1 - 1) with c by lia.
    rewrite to_unsigned_small by lia.
    destruct (Z.eqb_spec c 0); [lia | reflexivity].
Qed.

(** X8: however many blocks with a local [EventsSuppressor] lie inside one
    another, as long as their number fits in the counter, only the
    outermost one reaches the backend: entered with the counter at zero,
    they call the hook once with false before the body and once with true
    after it, a body that is quiet under suppression dispatches nothing,
    and the counter is zero again. *)
Theorem nested_guards_call_hook_twice (n : nat) (f : W -> W)
  (body : entry -> entry) (st : entry) :
  quiet_edit f body ->
  m_eventsBlock st = 0 ->
  Z.of_nat n < 2 ^ unsigned_bits - 1 ->
  nested_guards (S n) body st
  = mkEntry (native_EnableTextChangedEvents true
               (f (native_EnableTextChangedEvents false (widget st))))
            0 (m_hintData st)
            (observed st ++ [EvEnableTextChangedEvents false;
                             EvEnableTextChangedEvents true]).
Proof.
  intros Hbody H0 Hn. pose proof unsigned_range_large as Hbig.
  unfold nested_guards. rewrite Nat.iter_succ.
  fold (nested_guards n body).
  unfold with_EventsSuppressor, EventsSuppressor_ctor, EventsSuppressor_dtor.
  destruct st as [w c h o]; simpl in *. subst c.
  unfold SuppressTextChangedEvents; simpl.
  rewrite (to_unsigned_small (0 + 1)) by lia.
  unfold EnableTextChangedEvents; simpl.
  rewrite (nested_guards_inner f body n Hbody)
    by (cbn [m_eventsBlock]; lia).
  unfold ResumeTextChangedEvents, EnableTextChangedEvents, with_widget;
    simpl.
  rewrite to_unsigned_small by lia; simpl.
  now rewrite <- app_assoc.
Qed.

(** X9: what a guard does to [SendTextUpdatedEventIfAllowed].  With
    [suppress] false the guard does nothing and the event is dispatched
    when the counter is zero.  With [suppress] true the event is not
    dispatched, except from the largest value of [unsigned]: there the
    acquisition wraps the counter to zero and the event goes out. *)
Theorem guarded_notification (suppress : bool) (st : entry) :
  counter_ok st ->
  notifications
    (observed
       (with_EventsSuppressor suppress SendTextUpdatedEventIfAllowed st))
  = (notifications (observed st)
     + (if (if suppress
            then (m_eventsBlock st =? 2 ^ unsigned_bits - 1)%Z
            else (m_eventsBlock st =? 0)%Z)
        then 1 else 0))%nat.
Proof.
  intros Hok. unfold counter_ok in Hok.
  pose proof unsigned_range_large as Hbig.
  unfold with_EventsSuppressor, EventsSuppressor_ctor, EventsSuppressor_dtor.
  destruct suppress.
  - rewrite Resume_observed, SendIfAllowed_eq; simpl.
    rewrite Suppress_counter, Suppress_observed.
    rewrite to_unsigned_succ_pred by exact Hok.
    rewrite !notifications_app.
    destruct (Z.eqb_spec (m_eventsBlock st) (2 ^ unsigned_bits - 1))
      as [E | N].
    + rewrite E, to_unsigned_succ_max.
      destruct (Z.eqb_spec (2 ^ unsigned_bits - 1) 0); [lia |].
      unfold notifications; simpl. lia.
    + rewrite to_unsigned_small by lia.
      destruct (Z.eqb_spec (m_eventsBlock st + 1) 0); [lia |].
      destruct (m_eventsBlock st =? 0); unfold notifications; simpl; lia.
  - rewrite SendIfAllowed_eq; simpl. rewrite notifications_app.
    destruct (m_eventsBlock st =? 0); unfold notifications; simpl; lia.
Qed.

(** X10: with the default, empty [EnableTextChangedEvents] of the header,
    no sequence of suppressions and resumptions touches the widget: the
    last position and the answer of [IsEmpty] are what they were. *)
Theorem forward_all_default_hook (enables : list bool) (st : entry) :
  (forall (enable : bool) (w : W),
      native_EnableTextChangedEvents enable w = w) ->
  widget (forward_all enables st) = widget st
  /\ GetLastPosition (forward_all enables st) = GetLastPosition st
  /\ IsEmpty (forward_all enables st) = IsEmpty st.
Proof.
  intros Hdefault.
  assert (Hw : widget (forward_all enables st) = widget st).
  { revert st. induction enables as [| enable rest IH]; intros st;
      [reflexivity |].
    change (forward_all (enable :: rest) st)
      with (forward_all rest (ForwardEnableTextChangedEvents enable st)).
    rewrite IH. destruct enable; simpl.
    - rewrite Resume_widget.
      destruct (to_unsigned (m_eventsBlock st - 1) =? 0);
        [apply Hdefault | reflexivity].
    - rewrite Suppress_widget.
      destruct (m_eventsBlock st =? 0); [apply Hdefault | reflexivity]. }
  unfold IsEmpty, GetLastPosition. now rewrite Hw.
Qed.

End Guards.

(** ** Further concrete runs on a 32-bit platform *)

Lemma Resume_after_Suppress_witness :
  counter_ok (P := Reference.msw) (Reference.nested 4294967295 "Hi")
  /\ m_eventsBlock
       (ResumeTextChangedEvents (P := Reference.msw)
          (SuppressTextChangedEvents (P := Reference.msw)
             (Reference.nested 4294967295 "Hi")))
     = 4294967295.
Proof.
  assert (Hok : counter_ok (P := Reference.msw)
                  (Reference.nested 4294967295 "Hi")).
  { unfold counter_ok; simpl; lia. }
  split; [exact Hok |].
  destruct (Resume_after_Suppress (P := Reference.msw)
              (Reference.nested 4294967295 "Hi") Hok) as (Hc & _).
  exact Hc.
Defined.

Lemma Suppress_after_Resume_witness :
  counter_ok (P := Reference.msw) (Reference.fresh "Hi")
  /\ m_eventsBlock
       (SuppressTextChangedEvents (P := Reference.msw)
          (ResumeTextChangedEvents (P := Reference.msw)
             (Reference.fresh "Hi")))
     = 0
  /\ observed
       (SuppressTextChangedEvents (P := Reference.msw)
          (ResumeTextChangedEvents (P := Reference.msw)
             (Reference.fresh "Hi")))
     = [].
Proof.
  assert (Hok : counter_ok (P := Reference.msw) (Reference.fresh "Hi")).
  { unfold counter_ok; simpl; lia. }
  split; [exact Hok |].
  destruct (Suppress_after_Resume (P := Reference.msw)
              (Reference.fresh "Hi") Hok) as (Hc & _ & Ho).
  split; [exact Hc | exact Ho].
Defined.

Lemma Suppress_overflow_witness :
  counter_ok (P := Reference.msw) (Reference.nested 4294967295 "Hi")
  /\ EventsAllowed
       (SuppressTextChangedEvents (P := Reference.msw)
          (Reference.nested 4294967295 "Hi"))
     = true.
Proof.
  assert (Hok : counter_ok (P := Reference.msw)
                  (Reference.nested 4294967295 "Hi")).
  { unfold counter_ok; simpl; lia. }
  split; [exact Hok |].
  destruct (Suppress_overflow (P := Reference.msw)
              (Reference.nested 4294967295 "Hi") Hok) as (Hiff & _).
  apply Hiff. reflexivity.
Defined.

Lemma forward_all_counter_balance_witness :
  counter_ok (P := Reference.msw) (Reference.fresh "Hi")
  /\ EventsAllowed
       (forward_all (P := Reference.msw) [true; true; false; false]
          (Reference.fresh "Hi"))
     = true.
Proof.
  assert (Hok : counter_ok (P := Reference.msw) (Reference.fresh "Hi")).
  { unfold counter_ok; simpl; lia. }
  split; [exact Hok |].
  destruct (forward_all_counter_balance (P := Reference.msw)
              [true; true; false; false] (Reference.fresh "Hi") Hok)
    as (_ & _ & Hnet).
  destruct (Hnet eq_refl) as [_ Ha]. exact Ha.
Defined.

Lemma forward_all_keeps_hook_in_sync_witness :
  hook_in_sync
    (forward_all (P := Reference.msw) [false; false; true]
       (Reference.fresh "Hi"))
  /\ m_eventsBlock
       (forward_all (P := Reference.msw) [false; false; true]
          (Reference.fresh "Hi"))
     = 1.
Proof.
  apply (forward_all_keeps_hook_in_sync (P := Reference.msw)
           [false; false; true] (Reference.fresh "Hi")).
  - unfold counter_ok; simpl; lia.
  - reflexivity.
  - reflexivity.
Defined.

Lemma nested_guards_restore_counter_witness :
  m_eventsBlock
    (nested_guards (P := Reference.msw) 3 SendTextUpdatedEventIfAllowed
       (Reference.nested 4294967295 "Hi"))
  = 4294967295.
Proof.
  destruct (nested_guards_restore_counter (P := Reference.msw) 3
              SendTextUpdatedEventIfAllowed
              (Reference.nested 4294967295 "Hi")) as (_ & Hc & _).
  - unfold counter_ok; simpl; lia.
  - intros s _. unfold SendTextUpdatedEventIfAllowed.
    destruct (EventsAllowed s); reflexivity.
  - exact Hc.
Defined.

Lemma nested_guards_call_hook_twice_witness :
  observed
    (nested_guards (P := Reference.msw) 3
       (fun s => SendTextUpdatedEventIfAllowed (with_widget (fun w => w) s))
       (Reference.fresh "Hi"))
  = [EvEnableTextChangedEvents false; EvEnableTextChangedEvents true].
Proof.
  rewrite (nested_guards_call_hook_twice (P := Reference.msw) 2
             (fun w => w)
             (fun s =>
                SendTextUpdatedEventIfAllowed (with_widget (fun w => w) s))
             (Reference.fresh "Hi")).
  - reflexivity.
  - intros s Hs. unfold SendTextUpdatedEventIfAllowed, EventsAllowed.
    apply Z.eqb_neq in Hs. simpl. rewrite Hs. reflexivity.
  - reflexivity.
  - simpl. lia.
Defined.

Lemma guarded_notification_witness :
  counter_ok (P := Reference.msw) (Reference.nested 4294967295 "Hi")
  /\ notifications
       (observed
          (with_EventsSuppressor (P := Reference.msw) true
             SendTextUpdatedEventIfAllowed
             (Reference.nested 4294967295 "Hi")))
     = 1%nat.
Proof.
  assert (Hok : counter_ok (P := Reference.msw)
                  (Reference.nested 4294967295 "Hi")).
  { unfold counter_ok; simpl; lia. }
  split; [exact Hok |].
  rewrite (guarded_notification (P := Reference.msw) true
             (Reference.nested 4294967295 "Hi") Hok).
  reflexivity.
Defined.

Lemma forward_all_default_hook_witness :
  IsEmpty
    (forward_all (P := Reference.msw) [false; true; true]
       (Reference.fresh "Hi"))
  = false.
Proof.
  destruct (forward_all_default_hook (P := Reference.msw)
              [false; true; true] (Reference.fresh "Hi"))
    as (_ & _ & He).
  - intros enable w. reflexivity.
  - rewrite He. reflexivity.
Defined.
